(** * The intent handler of [cross.py]: a single-slot share buffer

    A shallow embedding of the class [IntentHandler] of [src/cross.py] and
    of the part of [AndroidUriResolver] it calls, followed by the properties
    of its buffer: the slot invariant, the behaviour of [pop], what an
    incoming intent does to the pending outcome, and which failures are
    converted into the stored message.

    Python objects are modelled as follows.
    - [None] is [None]; an attribute holding a value [v] is [Some v].
    - A call that may raise returns a [result]: the value, or the exception.
    - The handler object is a record of its attributes; a method is a
      function from the handler to an [Outcome]: what the call returned or
      raised, the handler afterwards, and the calls it made to the platform
      and to the resolver, in order.
    - The intent, its clip data and the clip items are Java objects seen
      through pyjnius: records of what each method call yields. *)

From Stdlib Require Import String List Bool ZArith Lia.
Import ListNotations.
Open Scope string_scope.

Set Implicit Arguments.

(** ** Exceptions and results *)

(** The exception classes the module distinguishes. [OtherException] stands
    for an instance of any class that is neither [AttributeError] nor
    [AssertionError] nor [ValueError] (a [jnius.JavaException] thrown by the
    platform, an [OSError], ...). *)
Inductive exc : Type :=
| AttributeError (msg : string)
| AssertionError (msg : string)
| ValueError (msg : string)
| OtherException (cls msg : string).

Inductive result (A : Type) : Type :=
| Ok (a : A)
| Raise (e : exc).
Arguments Ok {A} a.
Arguments Raise {A} e.

(** The clause [except (AttributeError, AssertionError)]. *)
Definition shape_error (e : exc) : bool :=
  match e with
  | AttributeError _ | AssertionError _ => true
  | ValueError _ | OtherException _ _ => false
  end.

(** Truthiness of a [str] or [None], of an [int], and of an object
    reference or [None]. *)
Definition truthy_str (v : option string) : bool :=
  match v with
  | None => false
  | Some s => negb (String.eqb s "")
  end.

Definition truthy_int (n : Z) : bool := negb (Z.eqb n 0).

Definition truthy_ref {A : Type} (v : option A) : bool :=
  match v with
  | None => false
  | Some _ => true
  end.

(** [x == 'literal'] for [x] a [str] or [None]. *)
Definition str_eq (v : option string) (lit : string) : bool :=
  match v with
  | None => false
  | Some s => String.eqb s lit
  end.

Section Platform.

(** An opaque platform reference to a file ([android.net.Uri]). *)
Variable Uri : Type.

(** A local file path is a [str]. *)
Definition Path : Type := string.

(** [kivy.utils.platform]. *)
Variable PLATFORM : string.

(** [AndroidFileChooser._resolve_uri] of Plyer, which the resolver class
    inherits: what it returns or raises for each reference it is given
    (the reference may be [None]; the value returned may be [None]). *)
Variable _resolve_uri : option Uri -> result (option Path).

(** ** The platform objects *)

(** [ClipData.Item]. *)
Record Item : Type := mkItem {
  getUri : result (option Uri)
}.

(** [ClipData]. *)
Record ClipData : Type := mkClipData {
  getItemCount : result Z;
  getItemAt : Z -> result Item
}.

(** [Intent]. *)
Record Intent : Type := mkIntent {
  getAction : result (option string);
  getData : result (option Uri);
  getClipData : result (option ClipData)
}.

(** [mActivity.getIntent()]: the intent that launched the activity. *)
Variable mActivity_getIntent : Intent.

(** ** The handler object *)

(** [class AndroidUriResolver]: its constructor does nothing, so an
    instance carries no data. *)
Inductive AndroidUriResolver : Type := mkAndroidUriResolver.

(** The attributes of an [IntentHandler]. [uri_resolver] is [None] when the
    attribute was never assigned (any platform but Android). *)
Record IntentHandler : Type := mkIntentHandler {
  data : option Path;
  error : option string;
  uri_resolver : option AndroidUriResolver
}.

(** What a method call makes the outside world see. *)
Inductive effect : Type :=
| CallGetIntent
| CallResolve (uri : option Uri)
| CallBind.

Record Outcome (A : Type) : Type := mkOutcome {
  res : result A;
  self_after : IntentHandler;
  trace : list effect
}.

(** A method body: a computation on [self]. *)
Definition M (A : Type) : Type := IntentHandler -> Outcome A.

Definition ret {A} (a : A) : M A :=
  fun self => mkOutcome (Ok a) self [].

Definition raise {A} (e : exc) : M A :=
  fun self => mkOutcome (Raise e) self [].

(** Sequencing: an exception skips the rest; assignments made and calls
    issued before it stay. *)
Definition bind {A B} (m : M A) (k : A -> M B) : M B :=
  fun self =>
    match m self with
    | mkOutcome (Ok a) self1 t1 =>
        match k a self1 with
        | mkOutcome r self2 t2 => mkOutcome r self2 (t1 ++ t2)
        end
    | mkOutcome (Raise e) self1 t1 => mkOutcome (Raise e) self1 t1
    end.

Notation "x <- m ;; k" := (bind m (fun x => k))
  (at level 61, m at next level, right associativity).
Notation "m ;;; k" := (bind m (fun _ => k))
  (at level 61, right associativity).

(** [try: body  except <classes>: handler]. *)
Definition try_except {A} (body : M A) (classes : exc -> bool)
    (handler : M A) : M A :=
  fun self =>
    match body self with
    | mkOutcome (Ok a) self1 t1 => mkOutcome (Ok a) self1 t1
    | mkOutcome (Raise e) self1 t1 =>
        if classes e then
          match handler self1 with
          | mkOutcome r self2 t2 => mkOutcome r self2 (t1 ++ t2)
          end
        else mkOutcome (Raise e) self1 t1
    end.

(** A call on a platform object. *)
Definition call {A} (r : result A) : M A :=
  fun self => mkOutcome r self [].

Definition emit (ev : effect) : M unit :=
  fun self => mkOutcome (Ok tt) self [ev].

(** [assert b]. *)
Definition assert (b : bool) : M unit :=
  if b then ret tt else raise (AssertionError "").

(** Attribute reads and writes on [self]. *)
Definition get_data : M (option Path) :=
  fun self => mkOutcome (Ok (data self)) self [].

Definition get_error : M (option string) :=
  fun self => mkOutcome (Ok (error self)) self [].

Definition set_data (v : option Path) : M unit :=
  fun self =>
    mkOutcome (Ok tt) (mkIntentHandler v (error self) (uri_resolver self)) [].

Definition set_error (v : option string) : M unit :=
  fun self =>
    mkOutcome (Ok tt) (mkIntentHandler (data self) v (uri_resolver self)) [].

Definition set_uri_resolver (r : AndroidUriResolver) : M unit :=
  fun self =>
    mkOutcome (Ok tt) (mkIntentHandler (data self) (error self) (Some r)) [].

(** Reading [self.uri_resolver] raises when it was never assigned. *)
Definition get_uri_resolver : M AndroidUriResolver :=
  fun self =>
    match uri_resolver self with
    | Some r => mkOutcome (Ok r) self []
    | None =>
        mkOutcome
          (Raise (AttributeError
                    "'IntentHandler' object has no attribute 'uri_resolver'"))
          self []
    end.

(** ** [AndroidUriResolver.resolve] *)

Definition resolve (r : AndroidUriResolver) (uri : option Uri)
    : M (option Path) :=
  emit (CallResolve uri) ;;;
  call (_resolve_uri uri).

(** ** [IntentHandler] *)

Definition ACTION_SEND : string := "android.intent.action.SEND".
Definition ACTION_SEND_MULTIPLE : string :=
  "android.intent.action.SEND_MULTIPLE".

(** The message assigned in the [except] clause: three adjacent literals. *)
Definition error_message : string :=
  "Your share target cannot be recognised as a file. "
  ++ "If it is indeed one, "
  ++ "please try selecting it via the file chooser instead.".

Definition handle_intent_action_send_multiple (intent : Intent) : M unit :=
  ret tt.

Definition handle_intent_action_send (intent : Intent) : M unit :=
  set_data None ;;;
  set_error None ;;;
  try_except
    (d <- call (getData intent) ;;
     uri <- (if truthy_ref d then
               call (getData intent)
             else
               clipData <- call (getClipData intent) ;;
               match clipData with
               | None => raise (AssertionError "")
               | Some cd =>
                   n <- call (getItemCount cd) ;;
                   assert (truthy_int n) ;;;
                   item <- call (getItemAt cd 0) ;;
                   call (getUri item)
               end) ;;
     r <- get_uri_resolver ;;
     p <- resolve r uri ;;
     set_data p)
    shape_error
    (set_error (Some error_message)).

Definition handle_android_intent (intent : Intent) : M unit :=
  a <- call (getAction intent) ;;
  if str_eq a ACTION_SEND then
    handle_intent_action_send intent
  else
    a' <- call (getAction intent) ;;
    if str_eq a' ACTION_SEND_MULTIPLE then
      handle_intent_action_send_multiple intent
    else
      ret tt.

Definition pop : M (option Path) :=
  e <- get_error ;;
  if truthy_str e then
    set_error None ;;;
    raise (ValueError (match e with Some s => s | None => "None" end))
  else
    d <- get_data ;;
    set_data None ;;;
    ret d.

(** The slots of a handler with nothing pending and no resolver. The body
    of [__init__] is given here on the slots; the object it is called on,
    which has no attribute yet, is [bare] in section [Objects], where
    [instance_init] is the constructor on that object. *)
Definition new_handler : IntentHandler := mkIntentHandler None None None.

Definition __init__ : M unit :=
  set_data None ;;;
  set_error None ;;;
  if String.eqb PLATFORM "android" then
    set_uri_resolver mkAndroidUriResolver ;;;
    emit CallGetIntent ;;;
    handle_android_intent mActivity_getIntent ;;;
    emit CallBind
  else
    ret tt.

Definition construct : Outcome unit := __init__ new_handler.

End Platform.

Arguments pop {Uri}.
Arguments get_data {Uri}.
Arguments get_error {Uri}.
Arguments set_data {Uri}.
Arguments set_error {Uri}.
Arguments ret {Uri A}.
Arguments raise {Uri A}.
Arguments call {Uri A}.

(** ** Sequences of calls *)

Section Runs.

Variable Uri : Type.
Variable _resolve_uri : option Uri -> result (option Path).

(** The platform delivers the intents of a list one after the other, each
    in a callback of its own: what a callback raises does not stop the
    next delivery. *)
Fixpoint deliver (intents : list (Intent Uri)) (self : IntentHandler)
    : IntentHandler :=
  match intents with
  | [] => self
  | intent :: rest =>
      deliver rest (self_after (handle_android_intent _resolve_uri intent self))
  end.

(** What [n] calls of [pop] in a row return or raise, first call first. *)
Fixpoint pops (n : nat) (self : IntentHandler)
    : list (result (option Path)) :=
  match n with
  | O => []
  | S k =>
      let o := pop (Uri := Uri) self in
      res o :: pops k (self_after o)
  end.

(** The states a handler goes through: both slots are [None] after
    construction starts, then [handle_android_intent] and [pop] are called
    in any order. *)
Inductive reachable : IntentHandler -> Prop :=
| reach_new : forall r, reachable (mkIntentHandler None None r)
| reach_intent : forall self intent,
    reachable self ->
    reachable (self_after (handle_android_intent _resolve_uri intent self))
| reach_pop : forall self,
    reachable self ->
    reachable (self_after (pop (Uri := Uri) self)).

(** The kind of an intent, as [handle_android_intent] tells it. *)
Definition is_send (intent : Intent Uri) : bool :=
  match getAction intent with
  | Ok a => str_eq a ACTION_SEND
  | Raise _ => false
  end.

(** The last single-send intent of a list, if it has one. *)
Fixpoint last_send (intents : list (Intent Uri)) : option (Intent Uri) :=
  match intents with
  | [] => None
  | intent :: rest =>
      match last_send rest with
      | Some l => Some l
      | None => if is_send intent then Some intent else None
      end
  end.

(** The intent supplies the reference [uri]: directly, or as the first
    item of a clip payload that is there and not empty. *)
Inductive supplies (intent : Intent Uri) (uri : option Uri) : Prop :=
| supplies_direct : forall u,
    getData intent = Ok (Some u) ->
    uri = Some u ->
    supplies intent uri
| supplies_clip : forall cd n item,
    getData intent = Ok None ->
    getClipData intent = Ok (Some cd) ->
    getItemCount cd = Ok n ->
    n <> 0%Z ->
    getItemAt cd 0 = Ok item ->
    getUri item = Ok uri ->
    supplies intent uri.

(** The intent exposes no reference: a lookup on it fails with an
    [AttributeError], or the clip payload is [None] or empty. *)
Inductive unrecognisable (intent : Intent Uri) : Prop :=
| no_getData : forall m,
    getData intent = Raise (AttributeError m) ->
    unrecognisable intent
| no_getClipData : forall m,
    getData intent = Ok None ->
    getClipData intent = Raise (AttributeError m) ->
    unrecognisable intent
| null_clip :
    getData intent = Ok None ->
    getClipData intent = Ok None ->
    unrecognisable intent
| no_getItemCount : forall cd m,
    getData intent = Ok None ->
    getClipData intent = Ok (Some cd) ->
    getItemCount cd = Raise (AttributeError m) ->
    unrecognisable intent
| empty_clip : forall cd,
    getData intent = Ok None ->
    getClipData intent = Ok (Some cd) ->
    getItemCount cd = Ok 0%Z ->
    unrecognisable intent.

(** The slots of a handler in use: no message, or the one message and no
    value beside it. *)
Definition slots_ok (self : IntentHandler) : Prop :=
  error self = None \/
  (error self = Some error_message /\ data self = None).

End Runs.

(** ** Sample platform objects

    References are written as their text form. *)

Module Sample.

Definition photo_uri : string := "content://media/external/images/42".
Definition song_uri : string := "content://media/external/audio/7".
Definition expired_uri : string := "content://downloads/expired".
Definition bare_uri : string := "photo.jpg".

(** A resolver in the manner of Plyer's: two references resolve to files;
    one is refused by the platform; a reference without a scheme, and
    [None], make it look an attribute up on [None]; any other reference
    resolves to nothing. *)
Definition resolver (uri : option string) : result (option Path) :=
  match uri with
  | None =>
      Raise (AttributeError
               "'NoneType' object has no attribute 'getAuthority'")
  | Some u =>
      if String.eqb u photo_uri then Ok (Some "/tmp/photo.jpg")
      else if String.eqb u song_uri then Ok (Some "/tmp/song.ogg")
      else if String.eqb u expired_uri then
        Raise (OtherException "JavaException" "Permission Denial")
      else if String.eqb u bare_uri then
        Raise (AttributeError "'NoneType' object has no attribute 'lower'")
      else Ok None
  end.

Definition clip_of (uris : list string) : ClipData string :=
  mkClipData
    (Ok (Z.of_nat (length uris)))
    (fun k =>
       match nth_error uris (Z.to_nat k) with
       | Some u => Ok (mkItem (Ok (Some u)))
       | None =>
           Raise (OtherException "JavaException" "IndexOutOfBoundsException")
       end).

(** A single-send intent carrying a direct reference. *)
Definition send_direct (u : string) : Intent string :=
  mkIntent (Ok (Some ACTION_SEND)) (Ok (Some u)) (Ok None).

(** A single-send intent carrying only a clip payload. *)
Definition send_clip (uris : list string) : Intent string :=
  mkIntent (Ok (Some ACTION_SEND)) (Ok None) (Ok (Some (clip_of uris))).

(** A single-send intent with neither. *)
Definition send_nothing : Intent string :=
  mkIntent (Ok (Some ACTION_SEND)) (Ok None) (Ok None).

Definition send_multiple (uris : list string) : Intent string :=
  mkIntent (Ok (Some ACTION_SEND_MULTIPLE)) (Ok None)
    (Ok (Some (clip_of uris))).

(** The intent of a launch from the home screen. *)
Definition main_intent : Intent string :=
  mkIntent (Ok (Some "android.intent.action.MAIN")) (Ok None) (Ok None).

(** A handler as constructed on Android, nothing pending. *)
Definition idle : IntentHandler :=
  mkIntentHandler None None (Some mkAndroidUriResolver).

(** The handler after one share of the photo, after one share of nothing
    recognisable, and after a share of the photo followed by a
    send-multiple intent. *)
Definition photo_pending : IntentHandler :=
  self_after (handle_android_intent resolver (send_direct photo_uri) idle).

Definition message_pending : IntentHandler :=
  self_after (handle_android_intent resolver send_nothing idle).

Definition photo_then_multiple : list (Intent string) :=
  [send_direct photo_uri; send_multiple [song_uri]].

Definition song_then_multiple : list (Intent string) :=
  [send_direct song_uri; send_multiple [song_uri]].

End Sample.

(** ** Calls on a handler in any order *)

Section Calls.

Variable Uri : Type.
Variable _resolve_uri : option Uri -> result (option Path).

(** What the application and the platform do with a handler once it is
    constructed: the platform delivers an intent, or the application calls
    [pop]. *)
Inductive handler_call : Type :=
| Deliver (intent : Intent Uri)
| Pop.

(** The handler after a list of such calls, first call first; what a call
    raises does not prevent the next one. *)
Fixpoint play (calls : list handler_call) (self : IntentHandler)
    : IntentHandler :=
  match calls with
  | [] => self
  | Deliver intent :: rest =>
      play rest (self_after (handle_android_intent _resolve_uri intent self))
  | Pop :: rest =>
      play rest (self_after (pop (Uri := Uri) self))
  end.

End Calls.

Arguments Pop {Uri}.

(** ** The object under the handler

    [IntentHandler] above is the handler seen by its two slots. A Python
    object has an attribute only once it was assigned: before [__init__]
    has run, the object has none, and reading [self.error] or [self.data]
    raises. This section models the object itself, the constructor that
    gives it its slots, and [pop] on it. *)

Section Objects.

Variable Uri : Type.
Variable PLATFORM : string.
Variable _resolve_uri : option Uri -> result (option Path).
Variable mActivity_getIntent : Intent Uri.

(** The attributes of an object: [None] for one that was never assigned,
    [Some v] for one that holds [v] (so [Some None] holds [None]). *)
Record instance : Type := mkInstance {
  attr_data : option (option Path);
  attr_error : option (option string);
  attr_uri_resolver : option AndroidUriResolver
}.

(** The object [IntentHandler.__new__] returns: no attribute yet. *)
Definition bare : instance := mkInstance None None None.

(** A handler with both slots, as an object. *)
Definition of_handler (h : IntentHandler) : instance :=
  mkInstance (Some (data h)) (Some (error h)) (uri_resolver h).

Definition no_attribute (name : string) : exc :=
  AttributeError
    ("'IntentHandler' object has no attribute '" ++ name ++ "'").

(** The slots of an object that has both. *)
Definition as_handler (o : instance) : result IntentHandler :=
  match attr_data o, attr_error o with
  | Some d, Some e => Ok (mkIntentHandler d e (attr_uri_resolver o))
  | None, _ => Raise (no_attribute "data")
  | Some _, None => Raise (no_attribute "error")
  end.

(** Assignments [self.data = v], [self.error = v], [self.uri_resolver = r]:
    the attribute is there afterwards, whether it was before or not. *)
Definition setattr_data (v : option Path) (o : instance) : instance :=
  mkInstance (Some v) (attr_error o) (attr_uri_resolver o).

Definition setattr_error (v : option string) (o : instance) : instance :=
  mkInstance (attr_data o) (Some v) (attr_uri_resolver o).

Definition setattr_uri_resolver (r : AndroidUriResolver) (o : instance)
    : instance :=
  mkInstance (attr_data o) (attr_error o) (Some r).

(** What a call on an object returns or raises, the object afterwards,
    and the calls made outside. *)
Record Reply (A : Type) : Type := mkReply {
  returned : result A;
  object_after : instance;
  calls : list (effect Uri)
}.

(** A method defined on the slots, called on an object that has them. *)
Definition on_slots {A : Type} (m : M Uri A) (o : instance) : Reply A :=
  match as_handler o with
  | Ok h =>
      let out := m h in
      mkReply (res out) (of_handler (self_after out)) (trace out)
  | Raise e => mkReply (Raise e) o []
  end.

(** [IntentHandler.__init__] on the object it is given. *)
Definition instance_init (o : instance) : Reply unit :=
  let o1 := setattr_data None o in
  let o2 := setattr_error None o1 in
  if String.eqb PLATFORM "android" then
    let o3 := setattr_uri_resolver mkAndroidUriResolver o2 in
    on_slots
      (bind (emit (CallGetIntent Uri)) (fun _ =>
       bind (handle_android_intent _resolve_uri mActivity_getIntent) (fun _ =>
       emit (CallBind Uri))))
      o3
  else
    mkReply (Ok tt) o2 [].

(** [IntentHandler()]. *)
Definition instantiate : Reply unit := instance_init bare.

(** [IntentHandler.pop] on an object: [self.error] is read first, and
    [self.data] only when there is no error to raise. *)
Definition instance_pop (o : instance) : Reply (option Path) :=
  match attr_error o with
  | None => mkReply (Raise (no_attribute "error")) o []
  | Some e =>
      if truthy_str e then
        mkReply
          (Raise (ValueError (match e with Some s => s | None => "None" end)))
          (setattr_error None o) []
      else
        match attr_data o with
        | None => mkReply (Raise (no_attribute "data")) o []
        | Some d => mkReply (Ok d) (setattr_data None o) []
        end
  end.

(** What [n] calls of [pop] in a row on an object return or raise. *)
Fixpoint instance_pops (n : nat) (o : instance)
    : list (result (option Path)) :=
  match n with
  | O => []
  | S k =>
      let r := instance_pop o in
      returned r :: instance_pops k (object_after r)
  end.

End Objects.

Arguments instance_pop {Uri}.

(** ** [ensure_storage_perms] *)

Section Permissions.

(** What the decorated function and the fallback act on, what they are
    given and what they return ([None] is [None]). *)
Variable World : Type.
Variable Args : Type.
Variable Value : Type.

Variable PLATFORM : string.

(** [Permission.WRITE_EXTERNAL_STORAGE] and [check_permission] of
    python-for-android. *)
Variable WRITE_EXTERNAL_STORAGE : string.
Variable check_permission : string -> World -> bool.

(** A call of a Python function: what it returns or raises, and the world
    afterwards. *)
Definition Action : Type := World -> result (option Value) * World.

(** A call of [request_permissions]: the permissions asked for and the
    callback the platform will call with the names and the grant results. *)
Record Request : Type := mkRequest {
  permissions : list string;
  on_result : list string -> list bool -> Action
}.

(** The [callback] closure of [inner_wrapper]; [grant_results[0]] raises
    an [IndexError] on an empty list. *)
Definition callback (fallback_func : Action) (func : Args -> Action)
    (args : Args) (permissions : list string) (grant_results : list bool)
    : Action :=
  fun w =>
    match grant_results with
    | [] => (Raise (OtherException "IndexError" "list index out of range"), w)
    | g :: _ => if g then func args w else fallback_func w
    end.

(** [ensure_storage_perms(fallback_func)(func)], that is [inner_wrapper]:
    what the call returns or raises, the world afterwards, and the
    permission requests it issued. *)
Definition ensure_storage_perms (fallback_func : Action)
    (func : Args -> Action) (args : Args) (w : World)
    : result (option Value) * World * list Request :=
  if String.eqb PLATFORM "android" then
    if check_permission WRITE_EXTERNAL_STORAGE w then
      (func args w, [])
    else
      ((Ok None, w),
       [mkRequest [WRITE_EXTERNAL_STORAGE] (callback fallback_func func args)])
  else
    (func args w, []).

End Permissions.

(** ** [open_file] *)

Section OpenFile.

Variable Uri : Type.
Variable PLATFORM : string.

(** [mimetypes.guess_type]: the type and the encoding guessed. *)
Variable guess_type : string -> option string * option string.

(** [FileProvider.getUriForFile(mActivity, authority, File(path))] and
    [mActivity.startActivity(intent)]: what each call yields. *)
Variable getUriForFile : string -> string -> result Uri.
Variable startActivity : result unit.

(** The constants of [android.content.Intent] the function names. *)
Variable ACTION_VIEW : string.
Variable FLAG_GRANT_READ_URI_PERMISSION : Z.
Variable FLAG_ACTIVITY_NEW_TASK : Z.

(** The calls [open_file] makes to the platform. *)
Inductive platform_call : Type :=
| NewFile (path : string)
| GetUriForFile (authority : string) (path : string)
| NewIntent
| SetAction (action : string)
| SetDataAndType (uri : Uri) (mime_type : option string)
| AddFlags (flags : Z)
| StartActivity.

Definition fileprovider : string := "com.pavelsof.wormhole.fileprovider".

(** What the call returns or raises, and the platform calls it made, in
    order. *)
Definition open_file (path : string) : result unit * list platform_call :=
  let mime_type := fst (guess_type path) in
  if String.eqb PLATFORM "android" then
    match getUriForFile fileprovider path with
    | Raise e => (Raise e, [NewFile path; GetUriForFile fileprovider path])
    | Ok uri =>
        (startActivity,
         [NewFile path; GetUriForFile fileprovider path;
          NewIntent;
          SetAction ACTION_VIEW;
          SetDataAndType uri mime_type;
          AddFlags FLAG_GRANT_READ_URI_PERMISSION;
          AddFlags FLAG_ACTIVITY_NEW_TASK;
          StartActivity])
    end
  else
    (Ok tt, []).

End OpenFile.

Arguments NewFile {Uri}.
Arguments GetUriForFile {Uri}.
Arguments NewIntent {Uri}.
Arguments SetAction {Uri}.
Arguments AddFlags {Uri}.
Arguments StartActivity {Uri}.

(** ** More sample inputs *)

Module Fixture.
Import Sample.

(** An intent whose object is [None]: every lookup on it fails. *)
Definition none_intent : Intent string :=
  mkIntent
    (Raise (AttributeError "'NoneType' object has no attribute 'getAction'"))
    (Raise (AttributeError "'NoneType' object has no attribute 'getData'"))
    (Raise (AttributeError
              "'NoneType' object has no attribute 'getClipData'")).

(** A handler as constructed off Android, nothing pending. *)
Definition desktop : IntentHandler := mkIntentHandler None None None.

(** A world that counts the runs of a decorated function and of its
    fallback, and says whether the permission is held. *)
Record counters : Type := mkCounters {
  granted : bool;
  saved : list string;
  refused : nat
}.

Definition has_permission (p : string) (w : counters) : bool := granted w.

(** The decorated function saves a file name; the fallback counts. *)
Definition save (name : string) : Action counters string :=
  fun w => (Ok (Some name), mkCounters (granted w) (name :: saved w) (refused w)).

Definition refuse : Action counters string :=
  fun w => (Ok None, mkCounters (granted w) (saved w) (S (refused w))).

Definition write_perm : string := "android.permission.WRITE_EXTERNAL_STORAGE".

(** A file provider that knows one directory. *)
Definition provider (authority path : string) : result string :=
  if String.prefix "/storage/" path then Ok ("content://" ++ authority ++ path)
  else Raise (OtherException "JavaException" "IllegalArgumentException").

Definition guess (path : string) : option string * option string :=
  if String.eqb path "/storage/photo.jpg" then (Some "image/jpeg", None)
  else (None, None).

End Fixture.

(** ** Properties *)

(** Unfolds the method bodies and the sequencing operators. *)
Ltac run :=
  unfold handle_android_intent, handle_intent_action_send,
    handle_intent_action_send_multiple, pop, resolve, get_uri_resolver,
    assert, try_except, bind, call, emit, ret, raise,
    get_data, get_error, set_data, set_error;
  cbn.

(** Splits on the innermost value the goal still branches on. *)
Ltac split_match :=
  match goal with
  | |- context [truthy_ref ?a] => destruct a; cbn
  | |- context [match ?x with _ => _ end] =>
      lazymatch x with
      | context [match _ with _ => _ end] => fail
      | _ => destruct x eqn:?; cbn
      end
  end.

Section Properties.

Variable Uri : Type.
Variable _resolve_uri : option Uri -> result (option Path).

Local Abbreviation send := (handle_intent_action_send _resolve_uri).
Local Abbreviation handle := (handle_android_intent _resolve_uri).

(** Sequencing after a call that returned, and after one that raised. *)
Lemma bind_call_Ok {A B} (a : A) (k : A -> M Uri B) (self : IntentHandler) :
  bind (call (Ok a)) k self = k a self.
Proof. unfold bind, call. destruct (k a self). reflexivity. Qed.

Lemma bind_call_Raise {A B} (e : exc) (k : A -> M Uri B)
    (self : IntentHandler) :
  bind (call (Raise e)) k self = mkOutcome (Raise e) self [].
Proof. reflexivity. Qed.

(** [error_message] is the sentence of the user interface. *)
Lemma error_message_text :
  error_message =
  "Your share target cannot be recognised as a file. If it is indeed one, please try selecting it via the file chooser instead.".
Proof. reflexivity. Qed.

Lemma error_message_truthy : truthy_str (Some error_message) = true.
Proof. reflexivity. Qed.

(** What the slots can hold at the end of [handle_intent_action_send]:
    a resolved value and no message; the message and no value; or, when
    the call is left by an exception, nothing. The resolver attribute is
    not touched. *)
Lemma send_slots (intent : Intent Uri) (self : IntentHandler) :
  let o := send intent self in
  uri_resolver (self_after o) = uri_resolver self /\
  ((res o = Ok tt /\ error (self_after o) = None) \/
   (res o = Ok tt /\ error (self_after o) = Some error_message
      /\ data (self_after o) = None) \/
   (exists e, res o = Raise e /\ shape_error e = false
      /\ error (self_after o) = None /\ data (self_after o) = None)).
Proof.
  run. repeat split_match; split; eauto 10.
Qed.

(** [handle_intent_action_send] does not look at what was pending. *)
Lemma send_forgets (intent : Intent Uri) (self : IntentHandler) :
  send intent self =
  send intent (mkIntentHandler None None (uri_resolver self)).
Proof. reflexivity. Qed.

(** An intent that is not a single send leaves the handler as it was and
    reaches nothing outside. *)
Lemma handle_not_send (intent : Intent Uri) (self : IntentHandler) :
  is_send intent = false ->
  self_after (handle intent self) = self /\ trace (handle intent self) = [].
Proof.
  unfold is_send. run. intros H.
  destruct (getAction intent) as [a|e]; cbn in *; auto.
  rewrite H. destruct (str_eq a ACTION_SEND_MULTIPLE); cbn; auto.
Qed.

Lemma handle_send (intent : Intent Uri) (self : IntentHandler) :
  is_send intent = true ->
  handle intent self = send intent self.
Proof.
  unfold is_send, handle_android_intent. intros H.
  destruct (getAction intent) as [a|e]; try discriminate.
  rewrite bind_call_Ok, H. reflexivity.
Qed.

Lemma send_slots_ok (intent : Intent Uri) (self : IntentHandler) :
  slots_ok (self_after (send intent self)).
Proof.
  destruct (send_slots intent self) as [_ [[_ H]|[[_ [H1 H2]]|[e [_ [_ [H _]]]]]]];
    unfold slots_ok; auto.
Qed.

Lemma pop_slots_ok (self : IntentHandler) :
  slots_ok self -> slots_ok (self_after (pop (Uri := Uri) self)).
Proof.
  unfold slots_ok. run. intros [H|[H1 H2]].
  - rewrite H. cbn. auto.
  - rewrite H1. cbn. auto.
Qed.

Lemma reachable_slots_ok (self : IntentHandler) :
  reachable _resolve_uri self -> slots_ok self.
Proof.
  induction 1 as [r|self intent _ IH|self _ IH].
  - left. reflexivity.
  - destruct (is_send intent) eqn:K.
    + rewrite (handle_send _ _ K). apply send_slots_ok.
    + destruct (handle_not_send intent self K) as [-> _]. exact IH.
  - apply pop_slots_ok, IH.
Qed.

Lemma handle_keeps_resolver (intent : Intent Uri) (self : IntentHandler) :
  uri_resolver (self_after (handle intent self)) = uri_resolver self.
Proof.
  destruct (is_send intent) eqn:K.
  - rewrite (handle_send _ _ K). apply send_slots.
  - destruct (handle_not_send intent self K) as [-> _]. reflexivity.
Qed.

(** [handle_intent_action_send] in closed form when the intent supplies a
    reference and the handler has its resolver: the one call to the
    resolver decides the outcome. *)
Lemma send_supplied (intent : Intent Uri) (self : IntentHandler)
    (uri : option Uri) (r : AndroidUriResolver) :
  supplies intent uri ->
  uri_resolver self = Some r ->
  send intent self =
  match _resolve_uri uri with
  | Ok p =>
      mkOutcome (Ok tt) (mkIntentHandler p None (Some r)) [CallResolve uri]
  | Raise e =>
      if shape_error e then
        mkOutcome (Ok tt) (mkIntentHandler None (Some error_message) (Some r))
          [CallResolve uri]
      else
        mkOutcome (Raise e) (mkIntentHandler None None (Some r))
          [CallResolve uri]
  end.
Proof.
  intros [u Hd ->|cd n item Hd Hc Hn Hnz Hi Hu] Hr; run.
  - rewrite Hd. cbn. rewrite Hr. cbn.
    destruct (_resolve_uri (Some u)) as [p|e]; cbn; [reflexivity|].
    destruct (shape_error e); reflexivity.
  - rewrite Hd. cbn. rewrite Hc. cbn. rewrite Hn.
    unfold truthy_int. destruct (Z.eqb_spec n 0) as [->|_]; [easy|]. cbn.
    rewrite Hi. cbn. rewrite Hu, Hr. cbn.
    destruct (_resolve_uri uri) as [p|e]; cbn; [reflexivity|].
    destruct (shape_error e); reflexivity.
Qed.

(** [handle_intent_action_send] in closed form when the intent exposes no
    reference. *)
Lemma send_unrecognisable (intent : Intent Uri) (self : IntentHandler) :
  unrecognisable intent ->
  send intent self =
  mkOutcome (Ok tt)
    (mkIntentHandler None (Some error_message) (uri_resolver self)) [].
Proof.
  intros [m Hd|m Hd Hc|Hd Hc|cd m Hd Hc Hn|cd Hd Hc Hn]; run;
    rewrite Hd; cbn; try reflexivity; rewrite Hc; cbn; try reflexivity;
    rewrite Hn; reflexivity.
Qed.

(** [pop] on a handler with a message pending, and with none. *)
Lemma pop_message (d : option Path) (r : option AndroidUriResolver) :
  pop (Uri := Uri) (mkIntentHandler d (Some error_message) r) =
  mkOutcome (Raise (ValueError error_message)) (mkIntentHandler d None r) [].
Proof. reflexivity. Qed.

Lemma pop_no_message (d : option Path) (r : option AndroidUriResolver) :
  pop (Uri := Uri) (mkIntentHandler d None r) =
  mkOutcome (Ok d) (mkIntentHandler None None r) [].
Proof. reflexivity. Qed.

Lemma reachable_message (self : IntentHandler) :
  reachable _resolve_uri self -> error self <> Some "".
Proof.
  intros H. destruct (reachable_slots_ok H) as [E|[E _]];
    rewrite E; discriminate.
Qed.

Lemma pop_keeps_resolver (self : IntentHandler) :
  uri_resolver (self_after (pop (Uri := Uri) self)) = uri_resolver self.
Proof.
  destruct self as [d e r]. unfold pop, bind, get_error. cbn.
  destruct (truthy_str e); reflexivity.
Qed.

(** The handler that construction leaves, also when the launch intent made
    it raise, is one [handle_android_intent] away from empty slots at most;
    on Android it has its resolver. *)
Lemma construct_reachable (PLATFORM : string)
    (mActivity_getIntent : Intent Uri) :
  reachable _resolve_uri
    (self_after (construct PLATFORM _resolve_uri mActivity_getIntent)).
Proof.
  unfold construct, __init__, new_handler.
  destruct (String.eqb PLATFORM "android"); [|apply reach_new].
  pose proof (reach_intent mActivity_getIntent
                (reach_new _resolve_uri (Some mkAndroidUriResolver))) as R.
  revert R. generalize (handle_android_intent _resolve_uri mActivity_getIntent).
  intros h R. unfold bind, set_data, set_error, set_uri_resolver, emit. cbn.
  destruct (h _) as [[[]|e] s t]; exact R.
Qed.

Lemma construct_android_resolver (mActivity_getIntent : Intent Uri) :
  uri_resolver
    (self_after (construct "android" _resolve_uri mActivity_getIntent)) =
  Some mkAndroidUriResolver.
Proof.
  unfold construct, __init__, new_handler.
  pose proof (handle_keeps_resolver mActivity_getIntent
                (mkIntentHandler None None (Some mkAndroidUriResolver))) as R.
  revert R. generalize (handle_android_intent _resolve_uri mActivity_getIntent).
  intros h R. unfold bind, set_data, set_error, set_uri_resolver, emit. cbn.
  destruct (h _) as [[[]|e] s t]; exact R.
Qed.

(** ** The buffer *)

(** C1. In every state a handler reaches from construction, where both
    slots are empty, through calls of [handle_android_intent] and [pop] in
    any order, the pending path and the pending error are not both set. *)
Theorem ready_failed_exclusive (self : IntentHandler) :
  reachable _resolve_uri self ->
  data self = None \/ error self = None.
Proof.
  intros H. destruct (reachable_slots_ok H) as [E|[_ D]]; auto.
Qed.

(** C2. [pop] on any state of the buffer whose error slot, when set,
    holds a message (a text that is not empty, as every state the handler
    reaches does): with an error pending it clears the error and raises a
    [ValueError] whose text is the stored message; with no error and a path
    pending it clears the path and returns it; with neither it returns
    [None] and raises nothing. *)
Theorem pop_behaviour (self : IntentHandler) :
  error self <> Some "" ->
  (forall m, error self = Some m ->
     pop (Uri := Uri) self =
     mkOutcome (Raise (ValueError m))
       (mkIntentHandler (data self) None (uri_resolver self)) []) /\
  (forall p, error self = None -> data self = Some p ->
     pop (Uri := Uri) self =
     mkOutcome (Ok (Some p))
       (mkIntentHandler None None (uri_resolver self)) []) /\
  (error self = None -> data self = None ->
     pop (Uri := Uri) self = mkOutcome (Ok None) self []).
Proof.
  intros H. destruct self as [d e r]. cbn [data error uri_resolver] in *.
  repeat split.
  - intros m ->. unfold pop, bind, get_error. cbn.
    destruct (String.eqb_spec m "") as [->|_]; [now elim H|reflexivity].
  - intros p -> ->. apply pop_no_message.
  - intros -> ->. apply pop_no_message.
Qed.

(** C6. After any call of [pop] on a state the handler reaches, whether
    the call returned a path, returned [None] or raised the stored error,
    both slots are empty, and a [pop] that follows at once returns [None]
    and changes nothing. *)
Theorem pop_empties (self : IntentHandler) :
  reachable _resolve_uri self ->
  let after := self_after (pop (Uri := Uri) self) in
  data after = None /\ error after = None /\
  pop (Uri := Uri) after = mkOutcome (Ok None) after [].
Proof.
  intros H. apply reachable_slots_ok in H.
  destruct self as [d e r]. unfold slots_ok in H.
  destruct H as [H|[H1 H2]]; cbn [data error] in *; subst.
  - rewrite pop_no_message. cbn. auto.
  - rewrite pop_message. cbn. auto.
Qed.

(** ** Single-send intents *)

(** C4. A single-send intent that exposes no reference (a lookup on it
    fails, or its clip payload is [None] or empty) makes
    [handle_intent_action_send] store no path and the fixed message; the
    next [pop] raises a [ValueError] with exactly that text and leaves the
    buffer empty. *)
Theorem unrecognisable_stores_message (intent : Intent Uri)
    (self : IntentHandler) :
  unrecognisable intent ->
  let o := send intent self in
  let msg := "Your share target cannot be recognised as a file. If it is indeed one, please try selecting it via the file chooser instead." in
  res o = Ok tt /\
  data (self_after o) = None /\
  error (self_after o) = Some msg /\
  trace o = [] /\
  pop (Uri := Uri) (self_after o) =
  mkOutcome (Raise (ValueError msg))
    (mkIntentHandler None None (uri_resolver self)) [].
Proof.
  intros H. cbn zeta. rewrite (send_unrecognisable self H).
  repeat split.
Qed.

(** C7. When a single-send intent supplies a reference, directly or as
    the first item of a clip payload that is there and not empty, the
    resolver is called once, with exactly that reference; what it returns
    is stored in the path slot and the error slot stays empty. *)
Theorem send_resolves_reference (intent : Intent Uri) (self : IntentHandler)
    (uri : option Uri) (r : AndroidUriResolver) :
  supplies intent uri ->
  uri_resolver self = Some r ->
  let o := send intent self in
  trace o = [CallResolve uri] /\
  (forall p, _resolve_uri uri = Ok p ->
     res o = Ok tt /\ data (self_after o) = p /\
     error (self_after o) = None).
Proof.
  intros H Hr. cbn zeta. rewrite (send_supplied self H Hr).
  destruct (_resolve_uri uri) as [p|e].
  - split; [reflexivity|]. intros q [= <-]. repeat split.
  - split; [destruct (shape_error e); reflexivity|]. discriminate.
Qed.

(** C5, as the code has it. When a single-send intent supplies a
    reference and the resolver raises on it, the class of the exception
    decides: an exception that is neither an [AttributeError] nor an
    [AssertionError] leaves [handle_intent_action_send] uncaught, with the
    buffer empty; an [AttributeError] or [AssertionError] of the resolver
    is caught like one of the intent and the fixed message is stored. *)
Theorem resolver_failure_by_class (intent : Intent Uri)
    (self : IntentHandler) (uri : option Uri) (r : AndroidUriResolver)
    (e : exc) :
  supplies intent uri ->
  uri_resolver self = Some r ->
  _resolve_uri uri = Raise e ->
  send intent self =
  if shape_error e then
    mkOutcome (Ok tt) (mkIntentHandler None (Some error_message) (Some r))
      [CallResolve uri]
  else
    mkOutcome (Raise e) (mkIntentHandler None None (Some r))
      [CallResolve uri].
Proof.
  intros H Hr He. rewrite (send_supplied self H Hr), He. reflexivity.
Qed.

(** C10. [handle_intent_action_send] starts from empty slots whatever was
    pending; so when the intent supplies a reference and the resolver
    raises an exception the handler does not catch, the call is left by
    that exception with both slots empty, and a later [pop] returns
    [None]. *)
Theorem uncaught_failure_leaves_empty (intent : Intent Uri)
    (self : IntentHandler) (uri : option Uri) (r : AndroidUriResolver)
    (e : exc) :
  supplies intent uri ->
  uri_resolver self = Some r ->
  _resolve_uri uri = Raise e ->
  shape_error e = false ->
  let o := send intent self in
  o = send intent (mkIntentHandler None None (uri_resolver self)) /\
  res o = Raise e /\
  data (self_after o) = None /\ error (self_after o) = None /\
  pop (Uri := Uri) (self_after o) = mkOutcome (Ok None) (self_after o) [].
Proof.
  intros H Hr He Hs. cbn zeta. split; [apply send_forgets|].
  rewrite (send_supplied self H Hr), He, Hs. repeat split.
Qed.

(** ** Other intents *)

(** C8. An intent whose action is not the single-send one, the
    send-multiple action included, leaves [handle_android_intent] without
    any change to the handler: both slots are as before and the resolver
    is not called. *)
Theorem other_kinds_ignored (intent : Intent Uri) (self : IntentHandler)
    (a : option string) :
  getAction intent = Ok a ->
  a <> Some ACTION_SEND ->
  handle intent self = mkOutcome (Ok tt) self [].
Proof.
  intros Ha Hn. unfold handle_android_intent.
  rewrite Ha, bind_call_Ok.
  assert (str_eq a ACTION_SEND = false) as ->.
  { destruct a as [s|]; cbn; [|reflexivity].
    apply String.eqb_neq. congruence. }
  rewrite bind_call_Ok.
  destruct (str_eq a ACTION_SEND_MULTIPLE); reflexivity.
Qed.

(** C3, as the code has it. After any list of intents delivered with no
    [pop] in between, the handler is what the last single-send intent of
    the list alone makes of an empty buffer; intents of other kinds
    overwrite nothing, and a list without a single-send intent leaves the
    handler as it was. *)
Theorem last_send_wins (intents : list (Intent Uri)) (self : IntentHandler) :
  deliver _resolve_uri intents self =
  match last_send intents with
  | Some intent =>
      self_after (send intent (mkIntentHandler None None (uri_resolver self)))
  | None => self
  end.
Proof.
  revert self. induction intents as [|intent rest IH]; intros self.
  - reflexivity.
  - cbn [deliver last_send]. rewrite IH, handle_keeps_resolver.
    destruct (last_send rest) as [l|]; [reflexivity|].
    destruct (is_send intent) eqn:K.
    + rewrite (handle_send _ _ K). now rewrite send_forgets.
    + now destruct (handle_not_send intent self K) as [-> _].
Qed.

(** ** Construction *)

(** The constructor on the object and the body of [__init__] on the
    slots agree: construction from the bare object returns, raises and
    calls what [construct] does, and leaves the object of the handler
    [construct] leaves. *)
Lemma instantiate_construct (PLATFORM : string)
    (mActivity_getIntent : Intent Uri) :
  instantiate PLATFORM _resolve_uri mActivity_getIntent =
  mkReply
    (res (construct PLATFORM _resolve_uri mActivity_getIntent))
    (of_handler
       (self_after (construct PLATFORM _resolve_uri mActivity_getIntent)))
    (trace (construct PLATFORM _resolve_uri mActivity_getIntent)).
Proof.
  unfold instantiate, instance_init, construct, __init__, new_handler.
  destruct (String.eqb PLATFORM "android"); [|reflexivity].
  generalize (handle_android_intent _resolve_uri mActivity_getIntent).
  intros h. unfold on_slots, bind, set_data, set_error, set_uri_resolver,
    emit. cbn.
  destruct (h _) as [[[]|e] s t]; reflexivity.
Qed.

(** [pop] on the object of a handler is [pop] on the handler. *)
Lemma instance_pop_of_handler (self : IntentHandler) :
  instance_pop (Uri := Uri) (of_handler self) =
  mkReply (res (pop (Uri := Uri) self))
    (of_handler (self_after (pop (Uri := Uri) self))) [].
Proof.
  destruct self as [d e r]. unfold instance_pop, of_handler, pop, bind,
    get_error, get_data, set_error, set_data, ret, raise. cbn.
  destruct (truthy_str e); reflexivity.
Qed.

Lemma instance_pops_of_handler (n : nat) (self : IntentHandler) :
  instance_pops Uri n (of_handler self) = pops Uri n self.
Proof.
  revert self. induction n as [|n IH]; intros self; [reflexivity|].
  cbn [instance_pops pops]. rewrite instance_pop_of_handler.
  cbn [returned object_after]. now rewrite IH.
Qed.

(** Before [__init__] has run, the object has no slot and [pop] raises. *)
Lemma pop_before_init :
  instance_pop (Uri := Uri) bare =
  mkReply (Raise (no_attribute "error")) bare [].
Proof. reflexivity. Qed.

(** C9. On a platform other than Android, construction turns the bare
    object into one whose two slots exist and hold [None], with no
    resolver, and reaches nothing outside: it does not read the launch
    intent, call the resolver or bind a listener. Every [pop] after it
    returns [None] and raises nothing. *)
Theorem construct_elsewhere (PLATFORM : string)
    (mActivity_getIntent : Intent Uri) :
  PLATFORM <> "android" ->
  instantiate PLATFORM _resolve_uri mActivity_getIntent =
  mkReply (Ok tt) (mkInstance (Some None) (Some None) None) [] /\
  forall n,
    instance_pops Uri n
      (object_after (instantiate PLATFORM _resolve_uri mActivity_getIntent)) =
    repeat (Ok None) n.
Proof.
  intros H.
  assert (E : instantiate PLATFORM _resolve_uri mActivity_getIntent =
              mkReply (Ok tt) (mkInstance (Some None) (Some None) None) []).
  { unfold instantiate, instance_init. apply String.eqb_neq in H.
    rewrite H. reflexivity. }
  split; [exact E|]. rewrite E. cbn [object_after].
  induction n as [|n IH]; [reflexivity|].
  cbn [instance_pops repeat]. unfold instance_pop at 1.
  cbn. f_equal. exact IH.
Qed.

End Properties.

(** ** The properties at sample inputs *)

Module Checks.
Import Sample.

Lemma photo_pending_reachable : reachable resolver photo_pending.
Proof. unfold photo_pending, idle. apply reach_intent, reach_new. Defined.

Lemma message_pending_reachable : reachable resolver message_pending.
Proof. unfold message_pending, idle. apply reach_intent, reach_new. Defined.

Lemma ready_failed_exclusive_witness :
  reachable resolver photo_pending /\
  (data photo_pending = None \/ error photo_pending = None).
Proof.
  split; [exact photo_pending_reachable|].
  apply (@ready_failed_exclusive string resolver).
  exact photo_pending_reachable.
Defined.

Lemma pop_behaviour_witness :
  error photo_pending <> Some "" /\
  pop (Uri := string) photo_pending =
  mkOutcome (Ok (Some "/tmp/photo.jpg")) idle [].
Proof.
  assert (H : error photo_pending <> Some "") by (vm_compute; discriminate).
  split; [exact H|].
  destruct (@pop_behaviour string photo_pending H) as [_ [K _]].
  apply K; reflexivity.
Defined.

Lemma pop_empties_witness :
  reachable resolver message_pending /\
  res (pop (Uri := string) message_pending) =
    Raise (ValueError error_message) /\
  self_after (pop (Uri := string) message_pending) = idle /\
  pop (Uri := string) (self_after (pop (Uri := string) message_pending)) =
    mkOutcome (Ok None) idle [].
Proof.
  split; [exact message_pending_reachable|].
  split; [reflexivity|]. split; [reflexivity|].
  apply (@pop_empties string resolver message_pending).
  exact message_pending_reachable.
Defined.

Lemma unrecognisable_stores_message_witness :
  unrecognisable send_nothing /\
  error (self_after (handle_intent_action_send resolver send_nothing
                       photo_pending)) =
  Some "Your share target cannot be recognised as a file. If it is indeed one, please try selecting it via the file chooser instead.".
Proof.
  assert (H : unrecognisable send_nothing)
    by (apply null_clip; reflexivity).
  split; [exact H|].
  apply (@unrecognisable_stores_message string resolver send_nothing
           photo_pending H).
Defined.

Lemma send_resolves_reference_witness :
  supplies (send_clip [song_uri; photo_uri]) (Some song_uri) /\
  trace (handle_intent_action_send resolver
           (send_clip [song_uri; photo_uri]) idle) =
  [CallResolve (Some song_uri)].
Proof.
  assert (H : supplies (send_clip [song_uri; photo_uri]) (Some song_uri)).
  { apply supplies_clip
      with (cd := clip_of [song_uri; photo_uri]) (n := 2%Z)
           (item := mkItem (Ok (Some song_uri)));
      try reflexivity. lia. }
  split; [exact H|].
  apply (@send_resolves_reference string resolver _ idle (Some song_uri)
           mkAndroidUriResolver H eq_refl).
Defined.

Lemma resolver_failure_by_class_witness :
  supplies (send_direct expired_uri) (Some expired_uri) /\
  handle_intent_action_send resolver (send_direct expired_uri)
    photo_pending =
  mkOutcome (Raise (OtherException "JavaException" "Permission Denial"))
    idle [CallResolve (Some expired_uri)].
Proof.
  assert (H : supplies (send_direct expired_uri) (Some expired_uri))
    by (apply supplies_direct with (u := expired_uri); reflexivity).
  split; [exact H|].
  apply (@resolver_failure_by_class string resolver _ photo_pending
           (Some expired_uri) mkAndroidUriResolver _ H eq_refl eq_refl).
Defined.

Lemma uncaught_failure_leaves_empty_witness :
  supplies (send_direct expired_uri) (Some expired_uri) /\
  data (self_after (handle_intent_action_send resolver
                      (send_direct expired_uri) photo_pending)) = None.
Proof.
  assert (H : supplies (send_direct expired_uri) (Some expired_uri))
    by (apply supplies_direct with (u := expired_uri); reflexivity).
  split; [exact H|].
  apply (@uncaught_failure_leaves_empty string resolver _ photo_pending
           (Some expired_uri) mkAndroidUriResolver
           (OtherException "JavaException" "Permission Denial")
           H eq_refl eq_refl eq_refl).
Defined.

Lemma other_kinds_ignored_witness :
  Some ACTION_SEND_MULTIPLE <> Some ACTION_SEND /\
  handle_android_intent resolver (send_multiple [song_uri]) photo_pending =
  mkOutcome (Ok tt) photo_pending [].
Proof.
  assert (H : Some ACTION_SEND_MULTIPLE <> Some ACTION_SEND)
    by (vm_compute; discriminate).
  split; [exact H|].
  apply (@other_kinds_ignored string resolver (send_multiple [song_uri])
           photo_pending (Some ACTION_SEND_MULTIPLE) eq_refl H).
Defined.

Lemma construct_elsewhere_witness :
  "linux" <> "android" /\
  instantiate "linux" resolver (send_direct photo_uri) =
  mkReply (Ok tt) (mkInstance (Some None) (Some None) None) [] /\
  instance_pops string 3
    (object_after (instantiate "linux" resolver (send_direct photo_uri))) =
  [Ok None; Ok None; Ok None].
Proof.
  assert (H : "linux" <> "android") by discriminate.
  split; [exact H|].
  destruct (@construct_elsewhere string resolver "linux"
              (send_direct photo_uri) H) as [H1 H2].
  split; [exact H1|exact (H2 3%nat)].
Defined.

(** C5 as the specification words it does not hold: this resolver raises
    an [AttributeError] on a reference without a scheme, and
    [handle_intent_action_send] catches it and stores the message. *)
Lemma resolver_failure_caught :
  supplies (send_direct bare_uri) (Some bare_uri) /\
  uri_resolver idle = Some mkAndroidUriResolver /\
  resolver (Some bare_uri) =
    Raise (AttributeError "'NoneType' object has no attribute 'lower'") /\
  handle_intent_action_send resolver (send_direct bare_uri) idle =
  mkOutcome (Ok tt)
    (mkIntentHandler None (Some error_message) (Some mkAndroidUriResolver))
    [CallResolve (Some bare_uri)].
Proof.
  split; [apply supplies_direct with (u := bare_uri); reflexivity|].
  repeat split.
Qed.

(** C3 as the specification words it does not hold: two lists that end
    with the same intent leave different handlers, because the
    send-multiple intent that ends them overwrites nothing; the outcome
    seen by [pop] is the one of the intent before it. *)
Lemma last_event_does_not_decide :
  last photo_then_multiple main_intent = last song_then_multiple main_intent /\
  deliver resolver photo_then_multiple idle <>
  deliver resolver song_then_multiple idle /\
  res (pop (Uri := string) (deliver resolver photo_then_multiple idle)) =
    Ok (Some "/tmp/photo.jpg") /\
  res (pop (Uri := string)
         (deliver resolver [send_multiple [song_uri]] idle)) = Ok None.
Proof.
  split; [reflexivity|]. split; [|split; reflexivity].
  vm_compute. discriminate.
Qed.

End Checks.

(** ** Further properties of the handler *)

Arguments CallBind {Uri}.
Arguments CallGetIntent {Uri}.

Section HandlerProperties.

Variable Uri : Type.
Variable _resolve_uri : option Uri -> result (option Path).

Local Abbreviation send := (handle_intent_action_send _resolve_uri).
Local Abbreviation handle := (handle_android_intent _resolve_uri).

(** The handler [__init__] passes the launch intent to on Android. *)
Local Abbreviation fresh :=
  (mkIntentHandler None None (Some mkAndroidUriResolver)).

Lemma send_trace (intent : Intent Uri) (self : IntentHandler) :
  trace (send intent self) = [] \/
  exists uri, trace (send intent self) = [CallResolve uri].
Proof. run. repeat split_match; eauto. Qed.

Lemma play_keeps_resolver (calls : list (handler_call Uri))
    (self : IntentHandler) :
  uri_resolver (play _resolve_uri calls self) = uri_resolver self.
Proof.
  revert self. induction calls as [|[intent|] rest IH]; intros self;
    cbn [play]; [reflexivity| |]; rewrite IH.
  - apply handle_keeps_resolver.
  - apply pop_keeps_resolver.
Qed.

Lemma handle_trace (intent : Intent Uri) (self : IntentHandler) :
  trace (handle intent self) = [] \/
  exists uri, trace (handle intent self) = [CallResolve uri].
Proof.
  destruct (is_send intent) eqn:K.
  - rewrite (handle_send _ _ _ K). apply send_trace.
  - left. apply (handle_not_send _resolve_uri intent self K).
Qed.

(** The handler after a list of deliveries, from its last single-send
    intent. *)
Lemma deliver_as_last_send (intents : list (Intent Uri))
    (self : IntentHandler) :
  deliver _resolve_uri intents self =
  match last_send intents with
  | Some intent =>
      self_after (send intent (mkIntentHandler None None (uri_resolver self)))
  | None => self
  end.
Proof.
  revert self. induction intents as [|intent rest IH]; intros self;
    [reflexivity|].
  cbn [deliver last_send]. rewrite IH, handle_keeps_resolver.
  destruct (last_send rest) as [l|]; [reflexivity|].
  destruct (is_send intent) eqn:K.
  - rewrite (handle_send _ _ _ K). now rewrite send_forgets.
  - now destruct (handle_not_send _resolve_uri intent self K) as [-> _].
Qed.

(** Construction on Android in terms of the handling of the launch
    intent: the listener is bound after it, and only when it returned. *)
Lemma construct_android (mActivity_getIntent : Intent Uri) :
  construct "android" _resolve_uri mActivity_getIntent =
  match handle mActivity_getIntent fresh with
  | mkOutcome (Ok _) self t =>
      mkOutcome (Ok tt) self (CallGetIntent :: t ++ [CallBind])
  | mkOutcome (Raise e) self t =>
      mkOutcome (Raise e) self (CallGetIntent :: t)
  end.
Proof.
  unfold construct, __init__, new_handler.
  generalize (handle_android_intent _resolve_uri mActivity_getIntent).
  intros h. unfold bind, set_data, set_error, set_uri_resolver, emit. cbn.
  destruct (h _) as [[[]|e] s t]; reflexivity.
Qed.

(** X1. On a state the handler reaches, [pop] raises nothing but a
    [ValueError] carrying the fixed message. *)
Theorem pop_raises_only_message (self : IntentHandler) (e : exc) :
  reachable _resolve_uri self ->
  res (pop (Uri := Uri) self) = Raise e ->
  e = ValueError error_message.
Proof.
  intros H. apply reachable_slots_ok in H. destruct self as [d m r].
  unfold slots_ok in H. cbn [data error] in H.
  destruct H as [->|[-> ->]].
  - rewrite pop_no_message. discriminate.
  - rewrite pop_message. cbn. congruence.
Qed.

(** X2. Whatever the intent and whatever was pending, an exception that
    leaves [handle_intent_action_send] is neither an [AttributeError] nor
    an [AssertionError], and it leaves both slots empty. *)
Theorem send_raise_leaves_empty (intent : Intent Uri) (self : IntentHandler)
    (e : exc) :
  res (send intent self) = Raise e ->
  shape_error e = false /\
  data (self_after (send intent self)) = None /\
  error (self_after (send intent self)) = None.
Proof.
  intros H.
  destruct (send_slots _resolve_uri intent self)
    as [_ [[K _]|[[K _]|[e' [K [Hs [He Hd]]]]]]];
    rewrite K in H; try discriminate.
  injection H as <-. auto.
Qed.

(** X3. One intent makes [handle_android_intent] call the resolver once
    at most, and reach nothing else outside. *)
Theorem handle_resolves_at_most_once (intent : Intent Uri)
    (self : IntentHandler) :
  trace (handle intent self) = [] \/
  exists uri, trace (handle intent self) = [CallResolve uri].
Proof. apply handle_trace. Qed.

(** X4. On a handler that has no resolver (one constructed off Android), a
    single-send intent that supplies a reference is not resolved: the
    failed lookup of [uri_resolver] is caught, the fixed message is stored
    and the resolver is not called. *)
Theorem send_without_resolver (intent : Intent Uri) (self : IntentHandler)
    (uri : option Uri) :
  supplies intent uri ->
  uri_resolver self = None ->
  send intent self =
  mkOutcome (Ok tt) (mkIntentHandler None (Some error_message) None) [].
Proof.
  intros [u Hd ->|cd n item Hd Hc Hn Hnz Hi Hu] Hr; run.
  - rewrite Hd. cbn. rewrite Hr. reflexivity.
  - rewrite Hd. cbn. rewrite Hc. cbn. rewrite Hn.
    unfold truthy_int. destruct (Z.eqb_spec n 0) as [->|_]; [easy|]. cbn.
    rewrite Hi. cbn. rewrite Hu, Hr. reflexivity.
Qed.

(** X5. An exception raised by [intent.getAction()], an [AttributeError]
    included, is not caught: it leaves [handle_android_intent] with the
    handler unchanged, no message stored and the resolver not called. *)
Theorem action_failure_propagates (intent : Intent Uri)
    (self : IntentHandler) (e : exc) :
  getAction intent = Raise e ->
  handle intent self = mkOutcome (Raise e) self [].
Proof.
  intros H. unfold handle_android_intent. rewrite H. reflexivity.
Qed.

(** X6. A handler constructed on Android has its resolver after any list
    of deliveries and [pop]s, also when the launch intent made the
    constructor raise. *)
Theorem android_handler_keeps_resolver (mActivity_getIntent : Intent Uri)
    (calls : list (handler_call Uri)) :
  uri_resolver
    (play _resolve_uri calls
       (self_after (construct "android" _resolve_uri mActivity_getIntent))) =
  Some mkAndroidUriResolver.
Proof.
  rewrite play_keeps_resolver. apply construct_android_resolver.
Qed.

(** X7. After any list of intents whose last single-send intent supplies
    a reference that the resolver resolves, [pop] returns what the
    resolver returned for that reference and leaves the buffer empty. *)
Theorem last_share_popped (intents : list (Intent Uri))
    (intent : Intent Uri) (self : IntentHandler) (uri : option Uri)
    (r : AndroidUriResolver) (p : option Path) :
  last_send intents = Some intent ->
  supplies intent uri ->
  uri_resolver self = Some r ->
  _resolve_uri uri = Ok p ->
  pop (Uri := Uri) (deliver _resolve_uri intents self) =
  mkOutcome (Ok p) (mkIntentHandler None None (Some r)) [].
Proof.
  intros Hl Hs Hr Hp. rewrite deliver_as_last_send, Hl.
  rewrite (send_supplied _resolve_uri
             (mkIntentHandler None None (uri_resolver self)) Hs Hr), Hp.
  apply pop_no_message.
Qed.

(** X8. On Android, when the handling of the launch intent raises, the
    constructor raises the same exception and does not bind the
    listener. *)
Theorem construct_android_failure (mActivity_getIntent : Intent Uri)
    (e : exc) :
  res (handle mActivity_getIntent fresh) = Raise e ->
  res (construct "android" _resolve_uri mActivity_getIntent) = Raise e /\
  ~ In CallBind
      (trace (construct "android" _resolve_uri mActivity_getIntent)).
Proof.
  intros H. rewrite construct_android.
  pose proof (handle_trace mActivity_getIntent fresh) as T.
  destruct (handle_android_intent _ _ _) as [[[]|e'] s t]; cbn in *;
    [discriminate|].
  split; [exact H|].
  intros [K|K]; [discriminate|].
  destruct T as [->|[u ->]]; [exact K|].
  destruct K as [K|[]]. discriminate.
Qed.

(** X9. On Android, when the handling of the launch intent returns, the
    constructor returns the handler that handling left; it has read the
    launch intent first and bound the listener last, once. *)
Theorem construct_android_binds (mActivity_getIntent : Intent Uri) :
  res (handle mActivity_getIntent fresh) = Ok tt ->
  construct "android" _resolve_uri mActivity_getIntent =
  mkOutcome (Ok tt)
    (self_after (handle mActivity_getIntent fresh))
    (CallGetIntent :: trace (handle mActivity_getIntent fresh) ++ [CallBind])
  /\
  ~ In CallBind (trace (handle mActivity_getIntent fresh)).
Proof.
  intros H. rewrite construct_android.
  pose proof (handle_trace mActivity_getIntent fresh) as T.
  destruct (handle_android_intent _ _ _) as [[[]|e'] s t]; cbn in *;
    [|discriminate].
  split; [reflexivity|].
  destruct T as [->|[u ->]]; [easy|].
  intros [K|[]]. discriminate.
Qed.

(** X10. On Android, a single-send launch intent that supplies a
    reference the resolver resolves is served by the first [pop] after
    construction. *)
Theorem launch_share_popped (mActivity_getIntent : Intent Uri)
    (uri : option Uri) (p : option Path) :
  is_send mActivity_getIntent = true ->
  supplies mActivity_getIntent uri ->
  _resolve_uri uri = Ok p ->
  res (construct "android" _resolve_uri mActivity_getIntent) = Ok tt /\
  pop (Uri := Uri)
    (self_after (construct "android" _resolve_uri mActivity_getIntent)) =
  mkOutcome (Ok p) fresh [].
Proof.
  intros Hk Hs Hp. rewrite construct_android, (handle_send _ _ _ Hk).
  rewrite (send_supplied _resolve_uri fresh Hs eq_refl), Hp.
  cbn [res self_after]. split; [reflexivity|]. apply pop_no_message.
Qed.

End HandlerProperties.

(** ** Properties of [ensure_storage_perms] *)

Section PermissionProperties.

Variable World : Type.
Variable Args : Type.
Variable Value : Type.
Variable PLATFORM : string.
Variable WRITE_EXTERNAL_STORAGE : string.
Variable check_permission : string -> World -> bool.
Variable fallback_func : Action World Value.
Variable func : Args -> Action World Value.

(** X11. Off Android, and on Android when the storage permission is held,
    the wrapped call is the call of the function itself, with the same
    arguments: it returns or raises what the function does and asks for no
    permission. The fallback is not run. *)
Theorem wrapper_immediate (args : Args) (w : World) :
  PLATFORM <> "android" \/
  check_permission WRITE_EXTERNAL_STORAGE w = true ->
  ensure_storage_perms PLATFORM WRITE_EXTERNAL_STORAGE check_permission
    fallback_func func args w =
  (func args w, []).
Proof.
  unfold ensure_storage_perms. intros [H|H].
  - apply String.eqb_neq in H. rewrite H. reflexivity.
  - rewrite H. destruct (String.eqb PLATFORM "android"); reflexivity.
Qed.

(** X12. On Android without the storage permission, the wrapped call
    returns [None] whatever the function would return, runs neither the
    function nor the fallback, and issues one request, for the storage
    permission alone. When the platform answers that request, the callback
    runs the function on the original arguments if the first result is a
    grant and the fallback if it is a refusal; on an empty list of results
    it raises an [IndexError] and runs neither. *)
Theorem wrapper_deferred (args : Args) (w : World) :
  PLATFORM = "android" ->
  check_permission WRITE_EXTERNAL_STORAGE w = false ->
  exists rq,
    ensure_storage_perms PLATFORM WRITE_EXTERNAL_STORAGE check_permission
      fallback_func func args w =
    ((Ok None, w), [rq]) /\
    permissions rq = [WRITE_EXTERNAL_STORAGE] /\
    forall names w',
      on_result rq names [] w' =
        (Raise (OtherException "IndexError" "list index out of range"), w') /\
      forall g rest,
        on_result rq names (g :: rest) w' =
        if g then func args w' else fallback_func w'.
Proof.
  intros -> H. unfold ensure_storage_perms. rewrite H. cbn.
  eexists. split; [reflexivity|]. cbn. split; [reflexivity|].
  intros names w'. split; [reflexivity|]. intros g rest. reflexivity.
Qed.

End PermissionProperties.

(** ** Properties of [open_file] *)

Section OpenFileProperties.

Variable Uri : Type.
Variable PLATFORM : string.
Variable guess_type : string -> option string * option string.
Variable getUriForFile : string -> string -> result Uri.
Variable startActivity : result unit.
Variable ACTION_VIEW : string.
Variable FLAG_GRANT_READ_URI_PERMISSION : Z.
Variable FLAG_ACTIVITY_NEW_TASK : Z.

Local Abbreviation open :=
  (open_file PLATFORM guess_type getUriForFile startActivity ACTION_VIEW
     FLAG_GRANT_READ_URI_PERMISSION FLAG_ACTIVITY_NEW_TASK).

(** X13. [open_file] starts an activity exactly when it runs on Android
    and the file provider returns a reference for the path. It then gives
    the intent that reference with the type guessed for the path, starts
    the activity as its last platform call, and returns or raises what
    [startActivity] does. In every other case it starts nothing; off
    Android it makes no platform call at all. *)
Theorem open_file_starts_activity (path : string) :
  (In StartActivity (snd (open path)) <->
   PLATFORM = "android" /\
   exists uri, getUriForFile fileprovider path = Ok uri) /\
  (forall uri,
     PLATFORM = "android" ->
     getUriForFile fileprovider path = Ok uri ->
     fst (open path) = startActivity /\
     In (SetDataAndType uri (fst (guess_type path))) (snd (open path)) /\
     last (snd (open path)) NewIntent = StartActivity) /\
  (PLATFORM <> "android" -> open path = (Ok tt, [])).
Proof.
  unfold open_file. split; [split|split].
  - intros H. destruct (String.eqb_spec PLATFORM "android") as [E|E];
      [|destruct H].
    split; [exact E|].
    destruct (getUriForFile fileprovider path) as [uri|e]; [eauto|].
    cbn in H. destruct H as [H|[H|[]]]; discriminate.
  - intros [-> [uri ->]]. cbn. auto 10.
  - intros uri -> Hu. cbn. rewrite Hu. cbn. auto 10.
  - intros H. apply String.eqb_neq in H. rewrite H. reflexivity.
Qed.

End OpenFileProperties.

(** ** The further properties at sample inputs *)

Module MoreChecks.
Import Sample Fixture.

Lemma pop_raises_only_message_witness :
  reachable resolver message_pending /\
  res (pop (Uri := string) message_pending) =
    Raise (ValueError error_message) /\
  ValueError error_message = ValueError error_message.
Proof.
  split; [exact Checks.message_pending_reachable|].
  split; [reflexivity|].
  apply (@pop_raises_only_message string resolver message_pending
           (ValueError error_message) Checks.message_pending_reachable
           eq_refl).
Defined.

Lemma send_raise_leaves_empty_witness :
  res (handle_intent_action_send resolver (send_clip [expired_uri])
         photo_pending) =
    Raise (OtherException "JavaException" "Permission Denial") /\
  data (self_after (handle_intent_action_send resolver
                      (send_clip [expired_uri]) photo_pending)) = None.
Proof.
  split; [reflexivity|].
  apply (@send_raise_leaves_empty string resolver (send_clip [expired_uri])
           photo_pending
           (OtherException "JavaException" "Permission Denial") eq_refl).
Defined.

Lemma send_without_resolver_witness :
  supplies (send_direct photo_uri) (Some photo_uri) /\
  uri_resolver desktop = None /\
  handle_intent_action_send resolver (send_direct photo_uri) desktop =
  mkOutcome (Ok tt) (mkIntentHandler None (Some error_message) None) [].
Proof.
  assert (H : supplies (send_direct photo_uri) (Some photo_uri))
    by (apply supplies_direct with (u := photo_uri); reflexivity).
  split; [exact H|]. split; [reflexivity|].
  apply (@send_without_resolver string resolver _ desktop _ H eq_refl).
Defined.

Lemma action_failure_propagates_witness :
  handle_android_intent resolver none_intent photo_pending =
  mkOutcome
    (Raise (AttributeError "'NoneType' object has no attribute 'getAction'"))
    photo_pending [].
Proof.
  apply (@action_failure_propagates string resolver none_intent
           photo_pending _ eq_refl).
Defined.

Lemma last_share_popped_witness :
  last_send photo_then_multiple = Some (send_direct photo_uri) /\
  pop (Uri := string) (deliver resolver photo_then_multiple idle) =
  mkOutcome (Ok (Some "/tmp/photo.jpg")) idle [].
Proof.
  split; [reflexivity|].
  apply (@last_share_popped string resolver photo_then_multiple
           (send_direct photo_uri) idle (Some photo_uri)
           mkAndroidUriResolver (Some "/tmp/photo.jpg") eq_refl).
  - apply supplies_direct with (u := photo_uri); reflexivity.
  - reflexivity.
  - reflexivity.
Defined.

Lemma construct_android_failure_witness :
  res (construct "android" resolver (send_direct expired_uri)) =
    Raise (OtherException "JavaException" "Permission Denial") /\
  ~ In CallBind (trace (construct "android" resolver
                          (send_direct expired_uri))).
Proof.
  apply (@construct_android_failure string resolver
           (send_direct expired_uri) _ eq_refl).
Defined.

Lemma construct_android_binds_witness :
  construct "android" resolver main_intent =
  mkOutcome (Ok tt) idle [CallGetIntent; CallBind].
Proof.
  apply (@construct_android_binds string resolver main_intent eq_refl).
Defined.

Lemma launch_share_popped_witness :
  is_send (send_clip [song_uri]) = true /\
  pop (Uri := string)
    (self_after (construct "android" resolver (send_clip [song_uri]))) =
  mkOutcome (Ok (Some "/tmp/song.ogg")) idle [].
Proof.
  split; [reflexivity|].
  apply (@launch_share_popped string resolver (send_clip [song_uri])
           (Some song_uri) (Some "/tmp/song.ogg") eq_refl).
  - apply supplies_clip
      with (cd := clip_of [song_uri]) (n := 1%Z)
           (item := mkItem (Ok (Some song_uri)));
      try reflexivity. lia.
  - reflexivity.
Defined.

Lemma wrapper_immediate_witness :
  "linux" <> "android" /\
  ensure_storage_perms "linux" write_perm has_permission refuse save
    "a.txt" (mkCounters false [] 0) =
  ((Ok (Some "a.txt"), mkCounters false ["a.txt"] 0), []).
Proof.
  assert (H : "linux" <> "android") by discriminate.
  split; [exact H|].
  apply (@wrapper_immediate counters string string "linux" write_perm
           has_permission refuse save "a.txt" (mkCounters false [] 0)
           (or_introl H)).
Defined.

Lemma wrapper_deferred_witness :
  exists rq,
    ensure_storage_perms "android" write_perm has_permission refuse save
      "a.txt" (mkCounters false [] 0) =
    ((Ok None, mkCounters false [] 0), [rq]) /\
    on_result rq [write_perm] [false] (mkCounters false [] 0) =
    (Ok None, mkCounters false [] 1).
Proof.
  destruct (@wrapper_deferred counters string string "android" write_perm
              has_permission refuse save "a.txt" (mkCounters false [] 0)
              eq_refl eq_refl) as [rq [H1 [_ H2]]].
  exists rq. split; [exact H1|].
  destruct (H2 [write_perm] (mkCounters false [] 0)) as [_ H3].
  exact (H3 false []).
Defined.

Lemma open_file_starts_activity_witness :
  fst (open_file "android" guess provider (Ok tt)
         "android.intent.action.VIEW" 1 268435456 "/storage/photo.jpg") =
  Ok tt /\
  In (SetDataAndType
        "content://com.pavelsof.wormhole.fileprovider/storage/photo.jpg"
        (Some "image/jpeg"))
     (snd (open_file "android" guess provider (Ok tt)
             "android.intent.action.VIEW" 1 268435456 "/storage/photo.jpg")).
Proof.
  destruct (@open_file_starts_activity string "android" guess provider
              (Ok tt) "android.intent.action.VIEW" 1%Z 268435456%Z
              "/storage/photo.jpg") as [_ [H _]].
  destruct (H "content://com.pavelsof.wormhole.fileprovider/storage/photo.jpg"
              eq_refl eq_refl) as [H1 [H2 _]].
  split; [exact H1|exact H2].
Defined.

End MoreChecks.
